(** * Feature schema of the bike-sharing pipeline

    A shallow embedding of [bikesharing_constants.py]: four module-level
    tables of column names, one bucket-count dictionary, the label name and
    the renaming helper [transformed_name].

    Python strings are embedded as [string]; a character outside ASCII (the
    degree sign of the temperature column) is held as its UTF-8 bytes, so
    equality and concatenation of embedded strings agree with Python's. *)

From stdpp Require Import gmap strings list fin_maps.

Local Open Scope Z_scope.

(** ** Python values, exceptions and the two operators the module relies on *)

(** The exceptions that the modelled operations can raise. *)
Inductive exn : Type :=
  | TypeError
  | KeyError (k : string).

(** The run-time values that may reach [transformed_name]. *)
Inductive value : Type :=
  | VNone
  | VInt (n : Z)
  | VStr (s : string).

(** A computation either raises or returns. *)
Definition result (A : Type) : Type := (exn + A)%type.
Definition raise {A : Type} (e : exn) : result A := inl e.
Definition ret {A : Type} (a : A) : result A := inr a.

(** [a + b]: the sum of two integers or the concatenation of two strings;
    any other pairing raises [TypeError]. *)
Definition py_add (a b : value) : result value :=
  match a, b with
  | VInt m, VInt n => ret (VInt (m + n))
  | VStr s, VStr t => ret (VStr (s +:+ t))
  | _, _ => raise TypeError
  end.

(** [d[k]] on a dictionary with string keys: the stored value, or
    [KeyError] when the key is absent. *)
Definition py_getitem {V : Type} (d : gmap string V) (k : string) : result V :=
  match d !! k with
  | Some v => ret v
  | None => raise (KeyError k)
  end.

(** [set(l)]: the set of the elements of a list. *)
Definition py_set (l : list string) : gset string := list_to_set l.

(** ** The module *)

(** Features with string data types that will be converted to indices. *)
Definition CATEGORICAL_FEATURE_KEYS : list string :=
  ["Functioning Day"; "Holiday"; "Seasons"]%string.

(** Numerical features that are marked as continuous. *)
Definition NUMERIC_FEATURE_KEYS : list string :=
  ["Humidity(%)"; "Rainfall(mm)"; "Snowfall (cm)"; "Solar Radiation (MJ/m2)";
   "Temperature(°C)"; "Visibility (10m)"; "Wind speed (m/s)"]%string.

(** Feature that can be grouped into buckets. *)
Definition BUCKET_FEATURE_KEYS : list string := ["Hour"]%string.

(** Number of buckets used for encoding each bucket feature. *)
Definition FEATURE_BUCKET_COUNT : gmap string Z := {["Hour"%string := 4]}.

(** Feature that the model will predict. *)
Definition LABEL_KEY : string := "Rented Bike Count".

(** Utility function for renaming the feature: [key + '_xf']. *)
Definition transformed_name (key : value) : result value :=
  py_add key (VStr "_xf").

(** Modelled from the spec: the accessor [bucket_count], which the module
    does not define; the module declares only the table
    [FEATURE_BUCKET_COUNT].  The accessor is the subscript
    [FEATURE_BUCKET_COUNT[feature]], whose failure on a missing key is
    Python's [KeyError], the spec's [UnknownFeature]. *)
Definition bucket_count (feature : string) : result Z :=
  py_getitem FEATURE_BUCKET_COUNT feature.

(** Every declared input feature, in declaration order. *)
Definition ALL_FEATURE_KEYS : list string :=
  CATEGORICAL_FEATURE_KEYS ++ NUMERIC_FEATURE_KEYS ++ BUCKET_FEATURE_KEYS.

(** [ends_with u k]: [k] has the suffix [u].  Used only to decide, by
    evaluation, that a declared name does not end with the helper's suffix. *)
Fixpoint ends_with (u k : string) : bool :=
  bool_decide (k = u) ||
  match k with
  | EmptyString => false
  | String _ k' => ends_with u k'
  end.

(** * Properties *)

(** Closed decidable facts about the tables are settled by evaluation. *)
Ltac decide_closed := apply (bool_decide_unpack _); vm_compute; exact I.

(** ** Strings under concatenation *)

Section string_facts.
Implicit Types s t u : string.

Lemma append_nil_l t : "" +:+ t = t.
Proof. reflexivity. Qed.

Lemma append_cons a s t : String a s +:+ t = String a (s +:+ t).
Proof. reflexivity. Qed.

Lemma length_append s t :
  String.length (s +:+ t) = (String.length s + String.length t)%nat.
Proof.
  induction s as [|a s IH]; [done|].
  rewrite append_cons. simpl. by rewrite IH.
Qed.

(** A non-empty suffix changes the string. *)
Lemma append_neq_self s u : u ≠ ""%string → s +:+ u ≠ s.
Proof.
  intros Hu Heq. apply (f_equal String.length) in Heq.
  rewrite length_append in Heq. destruct u; [done | simpl in Heq; lia].
Qed.

(** Concatenation cancels on the right. *)
Lemma append_inj_r u s t : s +:+ u = t +:+ u → s = t.
Proof.
  revert t. induction s as [|a s IH]; intros [|b t] Heq.
  - done.
  - apply (f_equal String.length) in Heq.
    rewrite append_nil_l, append_cons in Heq. simpl in Heq.
    rewrite length_append in Heq. lia.
  - apply (f_equal String.length) in Heq.
    rewrite append_nil_l, append_cons in Heq. simpl in Heq.
    rewrite length_append in Heq. lia.
  - rewrite !append_cons in Heq. injection Heq as -> Heq.
    f_equal. by apply IH.
Qed.
End string_facts.

(** ** The operators *)

Lemma py_add_str s t : py_add (VStr s) (VStr t) = ret (VStr (s +:+ t)).
Proof. reflexivity. Qed.


Lemma py_getitem_ret {V : Type} (d : gmap string V) (k : string) (v : V) :
  py_getitem d k = ret v ↔ d !! k = Some v.
Proof.
  unfold py_getitem, ret, raise. destruct (d !! k) as [w|]; split; intros H;
    by simplify_eq.
Qed.

Lemma py_getitem_raise {V : Type} (d : gmap string V) (k : string) (e : exn) :
  py_getitem d k = raise e ↔ (k ∉ dom d) ∧ e = KeyError k.
Proof.
  unfold py_getitem, ret, raise. rewrite not_elem_of_dom.
  destruct (d !! k) as [w|]; split; intros H; try done.
  - by destruct H.
  - by simplify_eq.
  - by destruct H as [_ ->].
Qed.

Lemma elem_of_py_set (l : list string) (x : string) : x ∈ py_set l ↔ x ∈ l.
Proof. unfold py_set. apply elem_of_list_to_set. Qed.

(** ** [transformed_name] *)

(** On a string the helper returns, and the result is a string. *)
Lemma transformed_name_str (s : string) :
  transformed_name (VStr s) = ret (VStr (s +:+ "_xf")).
Proof. reflexivity. Qed.


Lemma transformed_name_inj (s t : string) :
  transformed_name (VStr s) = transformed_name (VStr t) → s = t.
Proof.
  rewrite !transformed_name_str. intros Heq.
  injection Heq as Heq. by apply append_inj_r in Heq.
Qed.

Lemma transformed_name_length (s : string) :
  ∃ r, transformed_name (VStr s) = ret (VStr r) ∧
       String.length r = (String.length s + 3)%nat.
Proof. exists (s +:+ "_xf"). split; [done | by rewrite length_append]. Qed.

(** C1: for every string [s], [transformed_name] applied to [s] returns
    (raises nothing) and its result is [s] followed by the suffix ["_xf"];
    in particular ["Hour"] becomes ["Hour_xf"] and the empty string becomes
    ["_xf"]. *)
Theorem transformed_name_appends_suffix :
  (∀ s : string, transformed_name (VStr s) = ret (VStr (s +:+ "_xf"))) ∧
  (∀ s : string, ∃ r : string, transformed_name (VStr s) = ret (VStr r)) ∧
  transformed_name (VStr "Hour") = ret (VStr "Hour_xf") ∧
  transformed_name (VStr "") = ret (VStr "_xf").
Proof.
  split; [exact transformed_name_str|].
  split; [|split; reflexivity].
  intros s. by exists (s +:+ "_xf").
Qed.

(** C10: [transformed_name] is injective on strings, so distinct feature
    names receive distinct transformed names, and the transformed name of
    a string is never that string itself. *)
Theorem transformed_name_injective :
  (∀ s t : string,
     transformed_name (VStr s) = transformed_name (VStr t) → s = t) ∧
  (∀ s t : string,
     s ≠ t → transformed_name (VStr s) ≠ transformed_name (VStr t)) ∧
  (∀ s : string, transformed_name (VStr s) ≠ ret (VStr s)).
Proof.
  split; [exact transformed_name_inj|]. split.
  - intros s t Hne Heq. by apply Hne, transformed_name_inj.
  - intros s Heq. rewrite transformed_name_str in Heq.
    injection Heq as Heq. by apply append_neq_self in Heq.
Qed.

(** The second part of C10 on two declared columns. *)
Lemma transformed_name_injective_witness :
  transformed_name (VStr "Hour") ≠ transformed_name (VStr "Holiday").
Proof.
  apply (proj1 (proj2 transformed_name_injective) "Hour" "Holiday")%string.
  discriminate.
Defined.

(** ** The tables *)

Lemma ALL_FEATURE_KEYS_NoDup : NoDup ALL_FEATURE_KEYS.
Proof. decide_closed. Qed.

Lemma py_set_ALL_FEATURE_KEYS :
  py_set ALL_FEATURE_KEYS =
  py_set CATEGORICAL_FEATURE_KEYS ∪ py_set NUMERIC_FEATURE_KEYS
    ∪ py_set BUCKET_FEATURE_KEYS.
Proof.
  unfold ALL_FEATURE_KEYS, py_set. rewrite !list_to_set_app_L.
  by rewrite (assoc_L (∪)).
Qed.

(** The transformed names of the declared columns are pairwise distinct. *)
Lemma transformed_names_NoDup :
  NoDup (transformed_name ∘ VStr <$> ALL_FEATURE_KEYS).
Proof.
  apply NoDup_fmap_2_strong; [|apply ALL_FEATURE_KEYS_NoDup].
  intros s t _ _. apply transformed_name_inj.
Qed.

(** The dictionary has an entry for each bucketed column and no other. *)
Lemma FEATURE_BUCKET_COUNT_dom :
  dom FEATURE_BUCKET_COUNT = py_set BUCKET_FEATURE_KEYS.
Proof.
  unfold FEATURE_BUCKET_COUNT, BUCKET_FEATURE_KEYS, py_set.
  rewrite dom_singleton_L. simpl. by rewrite (right_id_L ∅ (∪)).
Qed.

Lemma FEATURE_BUCKET_COUNT_lookup (k : string) (n : Z) :
  FEATURE_BUCKET_COUNT !! k = Some n ↔ k = "Hour"%string ∧ n = 4.
Proof.
  unfold FEATURE_BUCKET_COUNT. rewrite lookup_singleton_Some.
  split; [by intros [<- <-] | by intros [-> ->]].
Qed.

(** C2: [bucket_count] fails exactly on the names outside the bucketed
    feature set, and the failure is the missing-key error carrying the
    name; on a member of the set it returns the count stored in the table.
    The name ["NotAFeature"] fails. *)
Theorem bucket_count_fails_iff_unknown (feature : string) :
  ((∃ e : exn, bucket_count feature = raise e) ↔
     (feature ∉ py_set BUCKET_FEATURE_KEYS)) ∧
  (bucket_count feature = raise (KeyError feature) ↔
     (feature ∉ py_set BUCKET_FEATURE_KEYS)) ∧
  ((∃ n : Z, FEATURE_BUCKET_COUNT !! feature = Some n ∧
             bucket_count feature = ret n) ↔
     feature ∈ py_set BUCKET_FEATURE_KEYS) ∧
  bucket_count "NotAFeature" = raise (KeyError "NotAFeature").
Proof.
  unfold bucket_count. rewrite <- FEATURE_BUCKET_COUNT_dom. split_and!.
  - split.
    + intros [e He]. by apply py_getitem_raise in He as [? _].
    + intros Hnot. exists (KeyError feature). by apply py_getitem_raise.
  - rewrite py_getitem_raise. split; [by intros [? _] | by intros ?].
  - rewrite elem_of_dom. split.
    + intros (n & Hn & _). by exists n.
    + intros [n Hn]. exists n. split; [done | by apply py_getitem_ret].
  - reflexivity.
Qed.

(** C3: the categorical, numeric and bucketed feature sets are pairwise
    disjoint, and the label name belongs to none of them. *)
Theorem feature_sets_pairwise_disjoint :
  py_set CATEGORICAL_FEATURE_KEYS ## py_set NUMERIC_FEATURE_KEYS ∧
  py_set CATEGORICAL_FEATURE_KEYS ## py_set BUCKET_FEATURE_KEYS ∧
  py_set NUMERIC_FEATURE_KEYS ## py_set BUCKET_FEATURE_KEYS ∧
  (LABEL_KEY ∉ py_set CATEGORICAL_FEATURE_KEYS) ∧
  (LABEL_KEY ∉ py_set NUMERIC_FEATURE_KEYS) ∧
  (LABEL_KEY ∉ py_set BUCKET_FEATURE_KEYS).
Proof. split_and!; decide_closed. Qed.

(** C4: the keys of the bucket-count table are exactly the bucketed
    feature set, which is the singleton of ["Hour"], and every count in the
    table is a positive integer. *)
Theorem bucket_table_keys_are_bucketed_features :
  dom FEATURE_BUCKET_COUNT = py_set BUCKET_FEATURE_KEYS ∧
  dom FEATURE_BUCKET_COUNT = {["Hour"%string]} ∧
  map_Forall (λ _ n, 0 < n) FEATURE_BUCKET_COUNT.
Proof.
  split_and!.
  - apply FEATURE_BUCKET_COUNT_dom.
  - unfold FEATURE_BUCKET_COUNT. apply dom_singleton_L.
  - intros k n [_ ->]%FEATURE_BUCKET_COUNT_lookup. lia.
Qed.

(** C5: the bucketed feature set is exactly the singleton of ["Hour"], and
    the bucket count of ["Hour"] is 4. *)
Theorem bucketed_features_and_hour_count :
  py_set BUCKET_FEATURE_KEYS = {["Hour"%string]} ∧
  FEATURE_BUCKET_COUNT !! "Hour"%string = Some 4 ∧
  bucket_count "Hour" = ret 4.
Proof.
  split_and!.
  - unfold py_set, BUCKET_FEATURE_KEYS. simpl. by rewrite (right_id_L ∅ (∪)).
  - by apply FEATURE_BUCKET_COUNT_lookup.
  - by apply py_getitem_ret, FEATURE_BUCKET_COUNT_lookup.
Qed.

(** C6: the categorical feature set is exactly ["Functioning Day"],
    ["Holiday"] and ["Seasons"]. *)
Theorem categorical_features_exact :
  py_set CATEGORICAL_FEATURE_KEYS =
    {["Functioning Day"; "Holiday"; "Seasons"]}%string ∧
  size (py_set CATEGORICAL_FEATURE_KEYS) = 3%nat ∧
  (∀ x : string, x ∈ CATEGORICAL_FEATURE_KEYS ↔
     x = "Functioning Day"%string ∨ x = "Holiday"%string ∨
     x = "Seasons"%string).
Proof.
  split_and!; [reflexivity | reflexivity |].
  intros x. unfold CATEGORICAL_FEATURE_KEYS.
  rewrite !elem_of_cons, elem_of_nil. tauto.
Qed.

(** C7: the numeric feature set is exactly the seven continuous-valued
    column names: humidity, rainfall, snowfall, solar radiation,
    temperature, visibility and wind speed. *)
Theorem numeric_features_exact :
  py_set NUMERIC_FEATURE_KEYS =
    {["Humidity(%)"; "Rainfall(mm)"; "Snowfall (cm)";
      "Solar Radiation (MJ/m2)"; "Temperature(°C)"; "Visibility (10m)";
      "Wind speed (m/s)"]}%string ∧
  size (py_set NUMERIC_FEATURE_KEYS) = 7%nat.
Proof. split; reflexivity. Qed.

(** C8: the label name is exactly ["Rented Bike Count"]. *)
Theorem label_exact : LABEL_KEY = "Rented Bike Count"%string.
Proof. reflexivity. Qed.

(** C9: the union of the categorical, numeric and bucketed feature sets
    has 11 distinct names, and the label name is not one of them. *)
Theorem declared_features_count :
  size (py_set CATEGORICAL_FEATURE_KEYS ∪ py_set NUMERIC_FEATURE_KEYS
          ∪ py_set BUCKET_FEATURE_KEYS) = 11%nat ∧
  (length CATEGORICAL_FEATURE_KEYS + length NUMERIC_FEATURE_KEYS
     + length BUCKET_FEATURE_KEYS = 11)%nat ∧
  (LABEL_KEY ∉ py_set CATEGORICAL_FEATURE_KEYS ∪ py_set NUMERIC_FEATURE_KEYS
                 ∪ py_set BUCKET_FEATURE_KEYS).
Proof.
  rewrite <- py_set_ALL_FEATURE_KEYS. split_and!.
  - unfold py_set. rewrite size_list_to_set by apply ALL_FEATURE_KEYS_NoDup.
    reflexivity.
  - reflexivity.
  - rewrite elem_of_py_set. decide_closed.
Qed.

(** ** The helper against the tables *)

Lemma append_assoc (s t u : string) : (s +:+ t) +:+ u = s +:+ (t +:+ u).
Proof.
  induction s as [|a s IH]; [done|].
  rewrite !append_cons. by rewrite IH.
Qed.

Lemma ends_with_append (u s : string) : ends_with u (s +:+ u) = true.
Proof.
  induction s as [|a s IH].
  - rewrite append_nil_l.
    destruct u; cbn [ends_with]; apply orb_true_intro; left;
      by apply bool_decide_eq_true_2.
  - rewrite append_cons. cbn [ends_with]. rewrite IH. apply orb_true_r.
Qed.

(** A name without the suffix is not the transformed name of any string. *)
Lemma not_transformed (k : string) :
  ends_with "_xf" k = false → ∀ s : string, s +:+ "_xf" ≠ k.
Proof.
  intros Hk s <-. by rewrite ends_with_append in Hk.
Qed.

Lemma declared_names_lack_suffix :
  Forall (λ k, ends_with "_xf" k = false) (LABEL_KEY :: ALL_FEATURE_KEYS).
Proof. decide_closed. Qed.

Lemma transformed_not_declared (s : string) :
  s +:+ "_xf" ∉ LABEL_KEY :: ALL_FEATURE_KEYS.
Proof.
  intros Hin.
  pose proof (proj1 (Forall_forall _ _) declared_names_lack_suffix _ Hin) as Hk.
  by apply (not_transformed _ Hk s).
Qed.


(** X2: whatever string it is given, [transformed_name] returns a name
    that is neither a declared feature name nor the label name: a
    transformed column never shadows a raw column. *)
Theorem transformed_name_is_fresh (s : string) :
  ∃ r : string,
    transformed_name (VStr s) = ret (VStr r) ∧
    (r ∉ py_set CATEGORICAL_FEATURE_KEYS) ∧
    (r ∉ py_set NUMERIC_FEATURE_KEYS) ∧
    (r ∉ py_set BUCKET_FEATURE_KEYS) ∧
    r ≠ LABEL_KEY.
Proof.
  exists (s +:+ "_xf"). split; [reflexivity|].
  pose proof (transformed_not_declared s) as Hfresh.
  rewrite not_elem_of_cons in Hfresh. destruct Hfresh as [Hlabel Hall].
  unfold ALL_FEATURE_KEYS in Hall. rewrite !not_elem_of_app in Hall.
  destruct Hall as (Hc & Hn & Hb).
  rewrite !elem_of_py_set. done.
Qed.

(** X3: the eleven declared features receive eleven pairwise distinct
    transformed names, each of them a string. *)
Theorem declared_features_transformed_distinct :
  NoDup (transformed_name ∘ VStr <$> ALL_FEATURE_KEYS) ∧
  length (transformed_name ∘ VStr <$> ALL_FEATURE_KEYS) = 11%nat ∧
  Forall (λ r, ∃ t : string, r = ret (VStr t))
         (transformed_name ∘ VStr <$> ALL_FEATURE_KEYS).
Proof.
  split_and!.
  - apply transformed_names_NoDup.
  - reflexivity.
  - apply Forall_fmap, Forall_forall. intros k _. simpl.
    by exists (k +:+ "_xf").
Qed.

(** X4: the bucket-count table has no entry under any transformed name:
    subscripting it with the result of [transformed_name] raises
    [KeyError], also for the bucketed column ["Hour"]. *)
Theorem bucket_table_misses_transformed (s : string) :
  ∃ r : string,
    transformed_name (VStr s) = ret (VStr r) ∧
    py_getitem FEATURE_BUCKET_COUNT r = raise (KeyError r).
Proof.
  exists (s +:+ "_xf"). split; [reflexivity|].
  apply py_getitem_raise. split; [|done].
  rewrite FEATURE_BUCKET_COUNT_dom, elem_of_py_set.
  intros Hin. apply (transformed_not_declared s).
  unfold ALL_FEATURE_KEYS. rewrite elem_of_cons, !elem_of_app. auto.
Qed.

(** X5: [transformed_name] is not idempotent: applied to its own result
    it returns the original string followed by the suffix twice, which
    differs from the result of a single application. *)
Theorem transformed_name_twice (s : string) :
  ∃ v : value,
    transformed_name (VStr s) = ret v ∧
    transformed_name v = ret (VStr (s +:+ "_xf_xf")) ∧
    transformed_name v ≠ transformed_name (VStr s).
Proof.
  exists (VStr (s +:+ "_xf")). split_and!.
  - reflexivity.
  - rewrite transformed_name_str. by rewrite append_assoc.
  - intros Heq. apply transformed_name_inj in Heq.
    by apply append_neq_self in Heq.
Qed.

(** X6: the transformed name is never the empty string, not even for the
    empty key: it is three characters longer than the key. *)
Theorem transformed_name_nonempty (s : string) :
  ∃ r : string,
    transformed_name (VStr s) = ret (VStr r) ∧
    r ≠ ""%string ∧
    String.length r = (String.length s + 3)%nat.
Proof.
  destruct (transformed_name_length s) as (r & Hr & Hlen).
  exists r. split_and!; [done | | done].
  intros ->. simpl in Hlen. lia.
Qed.
